(** * marconiclient.queues.v1.queues : the [Queue] handle

    A shallow embedding of [marconiclient/queues/v1/queues.py].

    The class [Queue] is glue code: every method assembles a request,
    resolves a transport and hands both to a function of the [core]
    module.  The only state the class owns is the field [_metadata].

    The embedding keeps that shape.  Methods are computations in a small
    state-and-exception monad whose state holds the handle ([self]), the
    client-side state of the transport layer and the remote service; every
    run also yields the trace of the calls it made to its collaborators.
    The collaborators that live in other modules of the package
    ([request.prepare_request], [transport.get_transport_for], the
    functions of [core]) are section variables. *)

From stdpp Require Import base gmap strings list pretty.

Local Open Scope string_scope.
Local Open Scope list_scope.
Local Open Scope Z_scope.

Set Warnings "-register-all".

(** ** Python values *)

(** The values that flow through the class: JSON-like payloads (metadata,
    messages, responses), the arguments of the methods, and opaque objects
    such as transport instances.  A dictionary is an association list with
    string keys, in insertion order; lookup takes the first binding. *)
Inductive pyval : Type :=
| PNone
| PBool (b : bool)
| PInt (z : Z)
| PStr (s : string)
| PList (l : list pyval)
| PTuple (l : list pyval)
| PDict (d : list (string * pyval))
| PObj (addr : positive).

(** Python's truth value testing, as used by [if x:], [x or y] and
    [x and y].  An opaque object defines neither [__bool__] nor [__len__]
    and is true. *)
Definition truthy (v : pyval) : bool :=
  match v with
  | PNone => false
  | PBool b => b
  | PInt z => negb (z =? 0)
  | PStr s => negb (String.eqb s "")
  | PList l => match l with [] => false | _ => true end
  | PTuple l => match l with [] => false | _ => true end
  | PDict d => match d with [] => false | _ => true end
  | PObj _ => true
  end.

(** [a or b] *)
Definition py_or (a b : pyval) : pyval := if truthy a then a else b.

(** [isinstance(v, list)] *)
Definition isinstance_list (v : pyval) : bool :=
  match v with PList _ => true | _ => false end.

(** [str(n)] for an integer. *)
Definition py_str (n : Z) : string := pretty n.

(** Exceptions: the class of the exception and its argument. *)
Record exn : Type := Exn { exn_class : string; exn_arg : pyval }.

Inductive Res (A : Type) : Type :=
| Ok (a : A)
| Raise (e : exn).
Arguments Ok {A} a.
Arguments Raise {A} e.

Fixpoint dict_get (d : list (string * pyval)) (k : string) : option pyval :=
  match d with
  | [] => None
  | (k', v) :: d' => if String.eqb k' k then Some v else dict_get d' k
  end.

(** [v[k]] for a string key [k].  A dictionary without the key raises
    [KeyError(k)]; a sequence cannot be indexed by a string and the other
    values cannot be indexed at all, which raises [TypeError] with the
    message of CPython 3.  An opaque object is a plain [object]. *)
Definition py_getitem (v : pyval) (k : string) : Res pyval :=
  match v with
  | PDict d =>
      match dict_get d k with
      | Some x => Ok x
      | None => Raise (Exn "KeyError" (PStr k))
      end
  | PList _ =>
      Raise (Exn "TypeError"
               (PStr "list indices must be integers or slices, not str"))
  | PTuple _ =>
      Raise (Exn "TypeError"
               (PStr "tuple indices must be integers or slices, not str"))
  | PStr _ =>
      Raise (Exn "TypeError"
               (PStr "string indices must be integers, not 'str'"))
  | PNone =>
      Raise (Exn "TypeError" (PStr "'NoneType' object is not subscriptable"))
  | PBool _ =>
      Raise (Exn "TypeError" (PStr "'bool' object is not subscriptable"))
  | PInt _ =>
      Raise (Exn "TypeError" (PStr "'int' object is not subscriptable"))
  | PObj _ =>
      Raise (Exn "TypeError" (PStr "'object' object is not subscriptable"))
  end.

(** ** Requests *)

(** Modelled from the spec: the class [transport.request.Request] is not
    part of this file.  The spec's RequestDescriptor has an endpoint, an
    api name-and-version string, a mapping of headers and a body. *)
Record Request : Type := mkRequest {
  endpoint : string;
  api : string;
  headers : gmap string string;
  content : pyval
}.

(** [req.headers[name] = value] *)
Definition set_header (req : Request) (name value : string) : Request :=
  {| endpoint := endpoint req;
     api := api req;
     headers := <[name := value]> (headers req);
     content := content req |}.

(** ** The functions of [core]

    One constructor per function of [marconiclient.queues.v1.core] that
    the class calls, with the arguments of the call.  A value of this type
    is one request handed to the core layer. *)
Module core.
Inductive call : Type :=
| queue_exists (trans : pyval) (req : Request) (queue_id : string)
| queue_create (trans : pyval) (req : Request) (queue_id : string)
| queue_delete (trans : pyval) (req : Request) (queue_id : string)
| queue_get_metadata (trans : pyval) (req : Request) (queue_id : string)
| queue_set_metadata (trans : pyval) (req : Request) (queue_id : string)
    (metadata : pyval)
| message_post (trans : pyval) (req : Request) (queue_id : string)
    (messages : pyval)
| message_get (trans : pyval) (req : Request) (queue_id : string)
    (message_id : pyval)
| message_get_many (trans : pyval) (req : Request) (queue_id : string)
    (messages : pyval)
| message_list (trans : pyval) (req : Request) (queue_id : string)
    (params : list (string * pyval)).

Definition request_of (c : call) : Request :=
  match c with
  | queue_exists _ r _ | queue_create _ r _ | queue_delete _ r _
  | queue_get_metadata _ r _ | queue_set_metadata _ r _ _
  | message_post _ r _ _ | message_get _ r _ _
  | message_get_many _ r _ _ | message_list _ r _ _ => r
  end.

Definition is_set_metadata (c : call) : bool :=
  match c with queue_set_metadata _ _ _ _ => true | _ => false end.

Definition is_get_metadata (c : call) : bool :=
  match c with queue_get_metadata _ _ _ => true | _ => false end.

Definition is_message_list (c : call) : bool :=
  match c with message_list _ _ _ _ => true | _ => false end.

Definition transport_of (c : call) : pyval :=
  match c with
  | queue_exists t _ _ | queue_create t _ _ | queue_delete t _ _
  | queue_get_metadata t _ _ | queue_set_metadata t _ _ _
  | message_post t _ _ _ | message_get t _ _ _
  | message_get_many t _ _ _ | message_list t _ _ _ => t
  end.

Definition queue_id_of (c : call) : string :=
  match c with
  | queue_exists _ _ q | queue_create _ _ q | queue_delete _ _ q
  | queue_get_metadata _ _ q | queue_set_metadata _ _ q _
  | message_post _ _ q _ | message_get _ _ q _
  | message_get_many _ _ q _ | message_list _ _ q _ => q
  end.
End core.

(** ** Traces

    Every call a method makes to a collaborator is recorded together with
    its outcome.  The calls to [core] are the remote operations; the other
    two work on the client side. *)
Inductive event : Type :=
| ev_prepare_request (conf : pyval) (endpoint api : string) (r : Res Request)
| ev_get_transport_for (conf : pyval) (request : Request) (r : Res pyval)
| ev_core (c : core.call) (r : Res pyval).

(** The exception a recorded call ended with, if any. *)
Definition raised (ev : event) : option exn :=
  match ev with
  | ev_prepare_request _ _ _ (Raise e)
  | ev_get_transport_for _ _ (Raise e)
  | ev_core _ (Raise e) => Some e
  | _ => None
  end.

(** The remote operations of a trace, in order. *)
Fixpoint core_calls (evs : list event) : list core.call :=
  match evs with
  | [] => []
  | ev_core c _ :: evs' => c :: core_calls evs'
  | _ :: evs' => core_calls evs'
  end.

(** ** The client and the handle *)

(** The attributes of [self.client] that the class reads.  The
    configuration is an opaque object that is passed through unchanged. *)
Record Client : Type := mkClient {
  conf : pyval;
  api_url : string;
  api_version : Z;
  client_uuid : string;
  transport : pyval
}.

Record Queue : Type := mkQueue {
  client : Client;
  _id : string;
  _metadata : pyval
}.

(** [self._metadata = v] *)
Definition with_metadata (q : Queue) (v : pyval) : Queue :=
  {| client := client q; _id := _id q; _metadata := v |}.

(** What a method runs in: the handle, the client-side state of the
    transport layer ([Env]: its cache of transport instances, the session)
    and the remote service ([World]). *)
Record State (Env World : Type) : Type := mkState {
  self : Queue;
  env : Env;
  world : World
}.
Arguments mkState {Env World} self env world.
Arguments self {Env World} s.
Arguments env {Env World} s.
Arguments world {Env World} s.

(** The outcome of a run: the value returned or the exception raised, the
    state it leaves, and the calls it made. *)
Record Run (S A : Type) : Type := mkRun {
  result : Res A;
  final : S;
  events : list event
}.
Arguments mkRun {S A} result final events.
Arguments result {S A} r.
Arguments final {S A} r.
Arguments events {S A} r.

(** A run that comes after the calls [evs] were made. *)
Definition after {S A : Type} (evs : list event) (r : Run S A) : Run S A :=
  match r with
  | mkRun x s evs' => mkRun x s (evs ++ evs')
  end.

(** ** Test doubles

    Small collaborators to run the methods on: a transport layer without
    state, and a service that stores the metadata of one queue. *)
Module Demo.

Definition prepare_request (conf : pyval) (endpoint api : string) (e : unit)
  : Res Request * unit :=
  (Ok {| endpoint := endpoint; api := api; headers := ∅;
         content := PNone |}, e).

(** A transport layer that has a transport for every endpoint. *)
Definition get_transport_for (conf : pyval) (request : Request) (e : unit)
  : Res pyval * unit := (Ok (PObj 7), e).

(** A transport layer that has none. *)
Definition no_transport_for (conf : pyval) (request : Request) (e : unit)
  : Res pyval * unit := (Ok PNone, e).

Definition page : pyval :=
  PDict [("links", PList []);
         ("messages", PList [PDict [("body", PStr "one")];
                             PDict [("body", PStr "two")]])].

(** The service: [World] is the stored metadata of the queue. *)
Definition core_send (c : core.call) (s : unit * pyval)
  : Res pyval * (unit * pyval) :=
  match c with
  | core.queue_set_metadata _ _ _ m => (Ok PNone, (s.1, m))
  | core.queue_get_metadata _ _ _ => (Ok s.2, s)
  | core.queue_exists _ _ _ => (Ok (PBool true), s)
  | core.message_post _ _ _ msgs =>
      (Ok (PDict [("partial", PBool false); ("posted", msgs)]), s)
  | core.message_list _ _ _ _ => (Ok page, s)
  | core.message_get_many _ _ _ _ => (Ok (PList []), s)
  | _ => (Ok PNone, s)
  end.

(** A service whose metadata cannot be changed: a write is accepted and
    dropped. *)
Definition core_frozen (c : core.call) (s : unit * pyval)
  : Res pyval * (unit * pyval) :=
  match c with
  | core.queue_set_metadata _ _ _ _ => (Ok PNone, s)
  | _ => core_send c s
  end.

(** A service that is down: every call raises. *)
Definition unavailable : exn :=
  Exn "ConnectionError" (PStr "service unavailable").

Definition core_down (c : core.call) (s : unit * pyval)
  : Res pyval * (unit * pyval) := (Raise unavailable, s).

Definition a_client : Client :=
  {| conf := PObj 1; api_url := "http://localhost:8888";
     api_version := 1; client_uuid := "3381af92";
     transport := PObj 2 |}.

(** A client without a default transport. *)
Definition bare_client : Client :=
  {| conf := PObj 1; api_url := "zmq://localhost:8888";
     api_version := 1; client_uuid := "3381af92";
     transport := PNone |}.

Definition ttl (n : Z) : pyval := PDict [("ttl", PInt n)].

(** A handle with the given cache, and the service holding [stored]. *)
Definition state (c : Client) (cached stored : pyval) : State unit pyval :=
  {| self := {| client := c; _id := "demo"; _metadata := cached |};
     env := tt; world := stored |}.

Definition a_request : Request :=
  {| endpoint := "zmq://localhost:8888"; api := "queues.v1";
     headers := ∅; content := PNone |}.

(** The request the methods of a handle of [a_client] send. *)
Definition sent_request : Request :=
  {| endpoint := "http://localhost:8888"; api := "queues.v1";
     headers := {["Client-ID" := "3381af92"]}; content := PNone |}.

(** What request assembly records for a handle of [a_client]. *)
Definition assembly_trace : list event :=
  [ev_prepare_request (PObj 1) "http://localhost:8888" "queues.v1"
     (Ok {| endpoint := "http://localhost:8888"; api := "queues.v1";
            headers := ∅; content := PNone |});
   ev_get_transport_for (PObj 1) sent_request (Ok (PObj 7))].

(** A request layer that cannot prepare a request. *)
Definition misconfigured : exn :=
  Exn "ValueError" (PStr "no endpoint configured").

Definition prepare_fails (conf : pyval) (endpoint api : string) (e : unit)
  : Res Request * unit := (Raise misconfigured, e).

(** A service that accepts writes of the metadata and fails to read it. *)
Definition core_no_read (c : core.call) (s : unit * pyval)
  : Res pyval * (unit * pyval) :=
  match c with
  | core.queue_get_metadata _ _ _ => (Raise unavailable, s)
  | _ => core_send c s
  end.

(** A service whose listing has no ['messages'] field. *)
Definition core_bare (c : core.call) (s : unit * pyval)
  : Res pyval * (unit * pyval) :=
  match c with
  | core.message_list _ _ _ _ => (Ok (PDict [("links", PList [])]), s)
  | _ => core_send c s
  end.

(** A request that already carries headers. *)
Definition prepare_with_headers (conf : pyval) (endpoint api : string)
    (e : unit) : Res Request * unit :=
  (Ok {| endpoint := endpoint; api := api;
         headers := {["Client-ID" := "stale"; "X-Auth-Token" := "t0k3n"]};
         content := PNone |}, e).

End Demo.

(** ** The class [Queue] *)

Section Queue.

Context {Env World : Type}.

(** Modelled from the spec: [request.prepare_request(conf,
    endpoint=..., api=...)] and [transport.get_transport_for(conf,
    request)] live in modules that are not part of this file.  The spec
    describes building a request as a data-assembly step without network
    I/O, and resolving a transport as a lookup whose side effect is to
    populate a cache.  So both work on the client side: they may read
    and update [Env] and may raise, and they have no access to the
    remote service. *)
Variable prepare_request :
  pyval -> string -> string -> Env -> Res Request * Env.
Variable get_transport_for :
  pyval -> Request -> Env -> Res pyval * Env.

(** The core layer: it delivers one call through the transport, which
    may change the remote service and the client-side state, and returns
    the result or raises. *)
Variable core_send :
  core.call -> Env * World -> Res pyval * (Env * World).

(** *** The monad *)

Definition M (A : Type) : Type := State Env World -> Run (State Env World) A.

#[local] Instance M_ret : MRet M := fun A a st => mkRun (Ok a) st [].

(** Sequencing: the second computation runs in the state the first one
    left, unless the first one raised; the traces are concatenated. *)
#[local] Instance M_bind : MBind M := fun A B k m st =>
  match m st with
  | mkRun (Ok a) st1 evs => after evs (k a st1)
  | mkRun (Raise e) st1 evs => mkRun (Raise e) st1 evs
  end.

Definition lift_res {A : Type} (r : Res A) : M A := fun st => mkRun r st [].

Definition get_self : M Queue := fun st => mkRun (Ok (self st)) st [].

(** [self._metadata = v] *)
Definition set__metadata (v : pyval) : M unit := fun st =>
  mkRun (Ok tt) (mkState (with_metadata (self st) v) (env st) (world st)) [].

(** [request.prepare_request(conf, endpoint=endpoint, api=api)] *)
Definition request_prepare_request (conf : pyval) (endpoint api : string)
  : M Request := fun st =>
  let '(r, e) := prepare_request conf endpoint api (env st) in
  mkRun r (mkState (self st) e (world st))
    [ev_prepare_request conf endpoint api r].

(** [transport.get_transport_for(conf, request)] *)
Definition transport_get_transport_for (conf : pyval) (request : Request)
  : M pyval := fun st =>
  let '(r, e) := get_transport_for conf request (env st) in
  mkRun r (mkState (self st) e (world st))
    [ev_get_transport_for conf request r].

(** A call of a function of [core]. *)
Definition core_call (c : core.call) : M pyval := fun st =>
  let '(r, (e, w)) := core_send c (env st, world st) in
  mkRun r (mkState (self st) e w) [ev_core c r].

(** *** The methods *)

Definition _get_transport (request : Request) : M pyval :=
  q ← get_self;
  trans ← transport_get_transport_for (conf (client q)) request;
  q ← get_self;
  mret (py_or trans (transport (client q))).

Definition _request_and_transport : M (Request * pyval) :=
  q ← get_self;
  let api := "queues.v" +:+ py_str (api_version (client q)) in
  req ← request_prepare_request (conf (client q)) (api_url (client q)) api;
  q ← get_self;
  let req := set_header req "Client-ID" (client_uuid (client q)) in
  trans ← _get_transport req;
  mret (req, trans).

Definition exists_ : M pyval :=
  '(req, trans) ← _request_and_transport;
  q ← get_self;
  core_call (core.queue_exists trans req (_id q)).

Definition ensure_exists : M pyval :=
  '(req, trans) ← _request_and_transport;
  q ← get_self;
  _ ← core_call (core.queue_create trans req (_id q));
  mret PNone.

Definition metadata (new_meta : pyval) (force_reload : bool) : M pyval :=
  '(req, trans) ← _request_and_transport;
  _ ← (if truthy new_meta then
         q ← get_self;
         _ ← core_call (core.queue_set_metadata trans req (_id q) new_meta);
         set__metadata new_meta
       else mret tt);
  q ← get_self;
  if truthy (_metadata q) && negb force_reload then
    mret (_metadata q)
  else
    v ← core_call (core.queue_get_metadata trans req (_id q));
    _ ← set__metadata v;
    q ← get_self;
    mret (_metadata q).

Definition delete : M pyval :=
  '(req, trans) ← _request_and_transport;
  q ← get_self;
  _ ← core_call (core.queue_delete trans req (_id q));
  mret PNone.

Definition post (messages : pyval) : M pyval :=
  let messages :=
    if isinstance_list messages then messages else PList [messages] in
  '(req, trans) ← _request_and_transport;
  q ← get_self;
  core_call (core.message_post trans req (_id q) messages).

Definition message (message_id : pyval) : M pyval :=
  '(req, trans) ← _request_and_transport;
  q ← get_self;
  core_call (core.message_get trans req (_id q) message_id).

(** [messages] takes message ids as variadic positional arguments, which
    arrive as a tuple, and filters as keyword arguments, which arrive as
    a dictionary. *)
Definition messages (messages : list pyval) (params : list (string * pyval))
  : M pyval :=
  '(req, trans) ← _request_and_transport;
  if truthy (PTuple messages) then
    q ← get_self;
    core_call (core.message_get_many trans req (_id q) (PTuple messages))
  else
    q ← get_self;
    resp ← core_call (core.message_list trans req (_id q) params);
    lift_res (py_getitem resp "messages").

(** [Queue(client, queue_id, auto_create)]: the handle starts with an
    empty cache; with [auto_create] the constructor calls
    [ensure_exists] on it. *)
Definition __init__ (client : Client) (queue_id : string)
    (auto_create : bool) (e : Env) (w : World)
  : Run (State Env World) pyval :=
  let st := mkState (mkQueue client queue_id PNone) e w in
  if auto_create then ensure_exists st else mkRun (Ok PNone) st [].

(** The public methods, as one type of operations. *)
Inductive operation : Type :=
| op_exists
| op_ensure_exists
| op_metadata (new_meta : pyval) (force_reload : bool)
| op_delete
| op_post (messages : pyval)
| op_message (message_id : pyval)
| op_messages (messages : list pyval) (params : list (string * pyval)).

Definition run (o : operation) : M pyval :=
  match o with
  | op_exists => exists_
  | op_ensure_exists => ensure_exists
  | op_metadata new_meta force_reload => metadata new_meta force_reload
  | op_delete => delete
  | op_post msgs => post msgs
  | op_message message_id => message message_id
  | op_messages ids params => messages ids params
  end.

(** *** Running the monad *)

Lemma core_calls_app evs evs' :
  core_calls (evs ++ evs') = core_calls evs ++ core_calls evs'.
Proof.
  induction evs as [|ev evs IH]; [reflexivity|].
  destruct ev; simpl; rewrite IH; reflexivity.
Qed.

Lemma bind_ok {A B : Type} (m : M A) (k : A -> M B) st a st1 evs :
  m st = mkRun (Ok a) st1 evs ->
  (m ≫= k) st = after evs (k a st1).
Proof. intros H. unfold mbind, M_bind. rewrite H. reflexivity. Qed.

Lemma bind_raise {A B : Type} (m : M A) (k : A -> M B) st e st1 evs :
  m st = mkRun (Raise e) st1 evs ->
  (m ≫= k) st = mkRun (Raise e) st1 evs.
Proof. intros H. unfold mbind, M_bind. rewrite H. reflexivity. Qed.

(** *** Request assembly *)

(** [_request_and_transport], case by case on what the two client-side
    collaborators answer. *)
Lemma assembly_spec st :
  let c := client (self st) in
  let api := "queues.v" +:+ py_str (api_version c) in
  _request_and_transport st =
    match prepare_request (conf c) (api_url c) api (env st) with
    | (Raise e, e1) =>
        mkRun (Raise e) (mkState (self st) e1 (world st))
          [ev_prepare_request (conf c) (api_url c) api (Raise e)]
    | (Ok req0, e1) =>
        let req := set_header req0 "Client-ID" (client_uuid c) in
        match get_transport_for (conf c) req e1 with
        | (Raise e, e2) =>
            mkRun (Raise e) (mkState (self st) e2 (world st))
              [ev_prepare_request (conf c) (api_url c) api (Ok req0);
               ev_get_transport_for (conf c) req (Raise e)]
        | (Ok t, e2) =>
            mkRun (Ok (req, py_or t (transport c)))
              (mkState (self st) e2 (world st))
              [ev_prepare_request (conf c) (api_url c) api (Ok req0);
               ev_get_transport_for (conf c) req (Ok t)]
        end
    end.
Proof.
  intros c api. unfold _request_and_transport, _get_transport.
  unfold mbind, M_bind, mret, M_ret, get_self, request_prepare_request,
    transport_get_transport_for. simpl. fold c. fold api.
  destruct (prepare_request (conf c) (api_url c) api (env st))
    as [[req0|e] e1]; simpl; [|reflexivity].
  destruct (get_transport_for _ _ e1) as [[t|e] e2]; reflexivity.
Qed.

(** A successful assembly leaves the handle and the service alone and
    records two client-side calls, none of which raised. *)
Lemma assembly_ok st req trans st1 evs :
  _request_and_transport st = mkRun (Ok (req, trans)) st1 evs ->
  self st1 = self st /\ world st1 = world st /\
  core_calls evs = [] /\ Forall (fun ev => raised ev = None) evs.
Proof.
  rewrite assembly_spec.
  destruct (prepare_request _ _ _ _) as [[req0|e] e1]; [|discriminate].
  simpl. destruct (get_transport_for _ _ _) as [[t|e] e2]; [|discriminate].
  intros H. injection H as <- <- <- <-. simpl.
  repeat split; repeat constructor.
Qed.

#[local] Arguments _request_and_transport : simpl never.

(** Symbolic execution of a method: unfold the monad, then split on the
    answers of the collaborators as they come up. *)
Ltac unfold_monad :=
  unfold mbind, M_bind, mret, M_ret, get_self, set__metadata, lift_res,
    core_call; rewrite ?assembly_spec; simpl.

Ltac split_answer :=
  match goal with
  | |- context [prepare_request ?a ?b ?c ?d] =>
      destruct (prepare_request a b c d) as [[?|?] ?]
  | |- context [get_transport_for ?a ?b ?c] =>
      destruct (get_transport_for a b c) as [[?|?] ?]
  | |- context [core_send ?a ?b] =>
      destruct (core_send a b) as [[?|?] [? ?]]
  end; simpl.

Ltac run_method := unfold_monad; repeat split_answer.

(** Step over a request assembly that is known to succeed. *)
Ltac after_assembly H :=
  let Hs := fresh "Hs" in
  let Hw := fresh "Hw" in
  pose proof (assembly_ok _ _ _ _ _ H) as (Hs & Hw & _);
  rewrite (bind_ok _ _ _ _ _ _ H);
  match type of H with
  | _ = mkRun _ ?st1 _ => destruct st1 as [? ? ?]
  end;
  simpl in Hs, Hw; subst; unfold_monad.

(** *** The metadata cache *)

(** A write with the default [force_reload]: one remote call, the write,
    after which the cache holds the value written. *)
Lemma metadata_write_through new_meta st req trans st1 evs v e w :
  truthy new_meta = true ->
  _request_and_transport st = mkRun (Ok (req, trans)) st1 evs ->
  core_send (core.queue_set_metadata trans req (_id (self st)) new_meta)
    (env st1, world st1) = (Ok v, (e, w)) ->
  metadata new_meta false st =
    mkRun (Ok new_meta) (mkState (with_metadata (self st) new_meta) e w)
      (evs ++ [ev_core
                 (core.queue_set_metadata trans req (_id (self st)) new_meta)
                 (Ok v)]).
Proof.
  intros Ht Hasm Hset. unfold metadata. after_assembly Hasm.
  simpl in Hset. rewrite Ht. unfold_monad. rewrite Hset. simpl.
  rewrite Ht. reflexivity.
Qed.

(** A read with a non-empty cache: no remote call at all. *)
Lemma metadata_cached_read st req trans st1 evs :
  truthy (_metadata (self st)) = true ->
  _request_and_transport st = mkRun (Ok (req, trans)) st1 evs ->
  metadata PNone false st = mkRun (Ok (_metadata (self st))) st1 evs.
Proof.
  intros Ht Hasm. unfold metadata. after_assembly Hasm.
  rewrite Ht. simpl. rewrite app_nil_r. reflexivity.
Qed.

(** A read with an empty cache, or a forced one: one remote call, the
    fetch, whose answer is cached and returned. *)
Lemma metadata_fetch force_reload st req trans st1 evs v e w :
  truthy (_metadata (self st)) && negb force_reload = false ->
  _request_and_transport st = mkRun (Ok (req, trans)) st1 evs ->
  core_send (core.queue_get_metadata trans req (_id (self st)))
    (env st1, world st1) = (Ok v, (e, w)) ->
  metadata PNone force_reload st =
    mkRun (Ok v) (mkState (with_metadata (self st) v) e w)
      (evs ++ [ev_core (core.queue_get_metadata trans req (_id (self st)))
                 (Ok v)]).
Proof.
  intros Ht Hasm Hget. unfold metadata. after_assembly Hasm.
  simpl in Hget. rewrite Ht. unfold_monad. rewrite Hget. reflexivity.
Qed.

(** A guard of a method: split on its truth value. *)
Ltac split_guard :=
  match goal with
  | |- context [truthy ?v] => destruct (truthy v) eqn:?
  | |- context [match ?l with [] => _ | _ :: _ => _ end] =>
      is_var l; destruct l
  | |- context [negb ?b] => is_var b; destruct b
  end; simpl.

Ltac run_all := run_method; repeat (split_guard; run_method).

(** The handle is written by [metadata] alone. *)
Lemma run_frame (o : operation) st :
  (if o is op_metadata _ _ then False else True) ->
  self (final (run o st)) = self st.
Proof.
  destruct o; intros H; try contradiction;
    unfold run, exists_, ensure_exists, delete, post, message, messages;
    run_all; try reflexivity.
  all: match goal with
       | |- context [py_getitem ?v ?k] => destruct (py_getitem v k)
       end; reflexivity.
Qed.

(** *** Posting messages *)

(** A dictionary is not a list, so [post] wraps it. *)
Lemma dict_is_not_a_list (d : list (string * pyval)) :
  isinstance_list (PDict d) = false.
Proof. reflexivity. Qed.

(** A list is passed on as it is. *)
Lemma post_list_unchanged (l : list pyval) st req trans st1 evs :
  _request_and_transport st = mkRun (Ok (req, trans)) st1 evs ->
  core_calls (events (post (PList l) st)) =
    [core.message_post trans req (_id (self st)) (PList l)].
Proof.
  intros Hasm.
  pose proof (assembly_ok _ _ _ _ _ Hasm) as (_ & _ & Hcalls & _).
  unfold post. after_assembly Hasm.
  destruct (core_send _ _) as [r [e w]]. simpl.
  rewrite core_calls_app, Hcalls. reflexivity.
Qed.

(** C3.  A message that is not a list is sent exactly as the one-element
    list that holds it: [post m] and [post [m]] are the same run, which
    hands the payload [[m]] to [core.message_post] in a single call and
    returns what that call returns (or raises what it raises).  Every
    message dictionary is such a message. *)
Theorem post_wraps_single_message (m : pyval) st :
  isinstance_list m = false ->
  post m st = post (PList [m]) st /\
  forall req trans st1 evs,
    _request_and_transport st = mkRun (Ok (req, trans)) st1 evs ->
    let c := core.message_post trans req (_id (self st)) (PList [m]) in
    exists r e w,
      core_send c (env st1, world st1) = (r, (e, w)) /\
      post m st = mkRun r (mkState (self st) e w) (evs ++ [ev_core c r]).
Proof.
  intros Hm. split.
  - unfold post. rewrite Hm. reflexivity.
  - intros req trans st1 evs Hasm c. subst c. unfold post. rewrite Hm.
    after_assembly Hasm.
    destruct (core_send _ _) as [r [e w]]. exists r, e, w.
    split; reflexivity.
Qed.

(** *** Resolving the transport *)

(** C4, as the code has it.  [_get_transport] asks the transport layer
    once.  If that raises, the exception is passed on.  Otherwise the
    answer is returned when it is true, and the client's own transport
    when it is not, whatever that is: the result can only be [None] if
    the client's own transport is [None]. *)
Theorem get_transport_falls_back (request : Request) st :
  let c := client (self st) in
  exists r e,
    get_transport_for (conf c) request (env st) = (r, e) /\
    _get_transport request st =
      mkRun
        match r with
        | Ok trans => Ok (if truthy trans then trans else transport c)
        | Raise exc => Raise exc
        end
        (mkState (self st) e (world st))
        [ev_get_transport_for (conf c) request r] /\
    (result (_get_transport request st) = Ok PNone ->
     transport c = PNone).
Proof.
  intros c. unfold _get_transport, transport_get_transport_for.
  unfold_monad. fold c.
  destruct (get_transport_for (conf c) request (env st)) as [[t|exc] e];
    simpl.
  - exists (Ok t), e. split; [reflexivity|]. split; [reflexivity|].
    unfold py_or. destruct (truthy t) eqn:Ht; intros [= H].
    + subst t. discriminate Ht.
    + exact H.
  - exists (Raise exc), e. split; [reflexivity|]. split; [reflexivity|].
    discriminate.
Qed.

(** *** Every request is assembled the same way *)

(** C5.  Request assembly does no remote work: it leaves the service as it
    is and calls no function of [core].  Every method starts with it:
    the first recorded call prepares a request for the api
    ["queues.v" + str(api_version)] at the endpoint [api_url], and every
    call to [core] that follows carries that request with the header
    [Client-ID] set to the client's [client_uuid]. *)
Theorem request_assembly (o : operation) st :
  let c := client (self st) in
  let asm := _request_and_transport st in
  world (final asm) = world st /\
  core_calls (events asm) = [] /\
  exists r0 rest,
    events (run o st) =
      ev_prepare_request (conf c) (api_url c)
        ("queues.v" +:+ py_str (api_version c)) r0 :: rest /\
    forall call r, In (ev_core call r) rest ->
      exists req0,
        r0 = Ok req0 /\
        core.request_of call =
          set_header req0 "Client-ID" (client_uuid c) /\
        headers (core.request_of call) !! "Client-ID" =
          Some (client_uuid c).
Proof.
  intros c asm. subst asm c. split; [|split].
  - run_method; reflexivity.
  - run_method; reflexivity.
  - destruct o;
      unfold run, exists_, ensure_exists, metadata, delete, post, message,
        messages;
      run_all;
      (eexists _, _; split; [reflexivity|]);
      intros call r Hin; simpl in Hin;
      repeat match type of Hin with
        | _ \/ _ => destruct Hin as [Hin|Hin]
        | False => contradiction
        | _ = _ => try discriminate Hin; injection Hin as <- <-
        end;
      eexists; (split; [reflexivity|]); simpl;
      (split; [reflexivity|apply lookup_insert_eq]).
Qed.

(** *** The cache belongs to [metadata] *)


(** *** Listing messages *)

(** Whatever happens, listing makes at most one call to [core]. *)
Lemma messages_at_most_one_call (params : list (string * pyval)) st :
  (length (core_calls (events (messages [] params st))) <= 1)%nat.
Proof.
  unfold messages. run_all;
    try match goal with
      | |- context [py_getitem ?v ?k] => destruct (py_getitem v k)
      end; simpl; lia.
Qed.

(** C7.  Without message ids, [messages] makes one call to [core], a
    [message_list] with the filters it was given, and returns the field
    ['messages'] of the answer to that call.  No second call follows,
    whatever the service holds. *)
Theorem messages_lists_one_page (params : list (string * pyval))
    st req trans st1 evs :
  _request_and_transport st = mkRun (Ok (req, trans)) st1 evs ->
  let c := core.message_list trans req (_id (self st)) params in
  exists r e w,
    core_send c (env st1, world st1) = (r, (e, w)) /\
    messages [] params st =
      mkRun
        match r with
        | Ok resp => py_getitem resp "messages"
        | Raise exc => Raise exc
        end
        (mkState (self st) e w) (evs ++ [ev_core c r]) /\
    core_calls (events (messages [] params st)) = [c] /\
    forall d page,
      r = Ok (PDict d) -> dict_get d "messages" = Some page ->
      result (messages [] params st) = Ok page.
Proof.
  intros Hasm c. subst c.
  pose proof (assembly_ok _ _ _ _ _ Hasm) as (_ & _ & Hcalls & _).
  assert (Hrun : exists r e w,
    core_send (core.message_list trans req (_id (self st)) params)
      (env st1, world st1) = (r, (e, w)) /\
    messages [] params st =
      mkRun
        match r with
        | Ok resp => py_getitem resp "messages"
        | Raise exc => Raise exc
        end
        (mkState (self st) e w)
        (evs ++ [ev_core
                   (core.message_list trans req (_id (self st)) params) r])).
  { unfold messages. after_assembly Hasm.
    destruct (core_send _ _) as [[resp|exc] [e w]]; simpl.
    - exists (Ok resp), e, w. split; [reflexivity|].
      destruct (py_getitem resp "messages"); reflexivity.
    - exists (Raise exc), e, w. split; reflexivity. }
  destruct Hrun as (r & e & w & Hsend & Hrun).
  exists r, e, w. split; [exact Hsend|]. split; [exact Hrun|].
  rewrite Hrun. simpl. split.
  - rewrite core_calls_app, Hcalls. reflexivity.
  - intros d page -> Hd. simpl. rewrite Hd. reflexivity.
Qed.

(** *** Errors *)

(** An exception raised by a collaborator ends the method, which raises
    that same exception. *)
Lemma errors_propagate (o : operation) st ev exc :
  In ev (events (run o st)) -> raised ev = Some exc ->
  result (run o st) = Raise exc /\ last (events (run o st)) = Some ev.
Proof.
  destruct o;
    unfold run, exists_, ensure_exists, metadata, delete, post, message,
      messages;
    run_all;
    try match goal with
      | |- context [py_getitem ?v ?k] => destruct (py_getitem v k)
      end; simpl;
    intros Hin Hev;
    repeat match type of Hin with
      | _ \/ _ => destruct Hin as [Hin|Hin]
      | False => contradiction
      | _ = _ => subst ev; simpl in Hev; try discriminate Hev
      end;
    injection Hev as <-; split; reflexivity.
Qed.

(** C8.  When [core.queue_set_metadata] raises, [metadata] raises the
    same exception and the cache is as it was before the call: the field
    is assigned only after the write returned.  And no method, in any
    run, handles an exception of a collaborator: once a recorded call has
    raised, the method makes no further call and raises that
    exception. *)
Theorem set_metadata_error_propagates :
  (forall new_meta force_reload st req trans st1 evs exc e w,
      truthy new_meta = true ->
      _request_and_transport st = mkRun (Ok (req, trans)) st1 evs ->
      let c := core.queue_set_metadata trans req (_id (self st)) new_meta in
      core_send c (env st1, world st1) = (Raise exc, (e, w)) ->
      metadata new_meta force_reload st =
        mkRun (Raise exc) (mkState (self st) e w)
          (evs ++ [ev_core c (Raise exc)]) /\
      _metadata (self (final (metadata new_meta force_reload st))) =
        _metadata (self st)) /\
  (forall o st ev exc,
      In ev (events (run o st)) -> raised ev = Some exc ->
      result (run o st) = Raise exc /\
      last (events (run o st)) = Some ev).
Proof.
  split.
  - intros new_meta force_reload st req trans st1 evs exc e w Ht Hasm c Hset.
    subst c.
    assert (Hrun : metadata new_meta force_reload st =
      mkRun (Raise exc) (mkState (self st) e w)
        (evs ++ [ev_core
                   (core.queue_set_metadata trans req (_id (self st))
                      new_meta) (Raise exc)])).
    { unfold metadata. after_assembly Hasm. simpl in Hset.
      rewrite Ht. unfold_monad. rewrite Hset. reflexivity. }
    split; [exact Hrun|]. rewrite Hrun. reflexivity.
  - intros o st ev exc. apply errors_propagate.
Qed.

(** *** Arguments that count as absent, and forced reloads *)

(** C9.  A [new_meta] that is false in Python's sense ([None], the empty
    dictionary, ...) is treated as no argument at all: the run is the
    run of a plain read.  It calls [core.queue_set_metadata] never, and
    the cache ends as it started or holds what a fetch returned. *)
Theorem metadata_falsy_argument_is_a_read new_meta force_reload st :
  truthy new_meta = false ->
  metadata new_meta force_reload st = metadata PNone force_reload st /\
  Forall (fun c => core.is_set_metadata c = false)
    (core_calls (events (metadata new_meta force_reload st))) /\
  (_metadata (self (final (metadata new_meta force_reload st))) =
     _metadata (self st) \/
   exists c v,
     In (ev_core c (Ok v)) (events (metadata new_meta force_reload st)) /\
     core.is_get_metadata c = true /\
     _metadata (self (final (metadata new_meta force_reload st))) = v).
Proof.
  intros Ht. split; [|split].
  - unfold metadata. rewrite Ht. reflexivity.
  - unfold metadata. rewrite Ht. run_all; repeat constructor.
  - unfold metadata. rewrite Ht. run_all;
      try (left; reflexivity);
      right; eexists _, _; simpl; (split; [right; right; left; reflexivity|]);
      split; reflexivity.
Qed.

(** C10.  With a true [new_meta] and [force_reload] the method writes,
    then fetches: two calls to [core].  It returns the fetched value,
    and the cache holds the fetched value, not [new_meta]. *)
Theorem metadata_write_with_force_reload new_meta
    st req trans st1 evs v1 e1 w1 v2 e2 w2 :
  truthy new_meta = true ->
  _request_and_transport st = mkRun (Ok (req, trans)) st1 evs ->
  let set := core.queue_set_metadata trans req (_id (self st)) new_meta in
  let get := core.queue_get_metadata trans req (_id (self st)) in
  core_send set (env st1, world st1) = (Ok v1, (e1, w1)) ->
  core_send get (e1, w1) = (Ok v2, (e2, w2)) ->
  metadata new_meta true st =
    mkRun (Ok v2) (mkState (with_metadata (self st) v2) e2 w2)
      (evs ++ [ev_core set (Ok v1); ev_core get (Ok v2)]).
Proof.
  intros Ht Hasm set get Hset Hget. subst set get.
  unfold metadata. after_assembly Hasm. simpl in Hset.
  rewrite Ht. unfold_monad. rewrite Hset. simpl.
  rewrite andb_false_r. unfold_monad. rewrite Hget. reflexivity.
Qed.

(** X16.  The only exception a method raises by itself is the one of the
    subscript ['messages'] in [messages]; every other exception is the
    one of the last recorded call. *)
Lemma errors_are_not_invented (o : operation) st exc :
  result (run o st) = Raise exc ->
  (exists ev, last (events (run o st)) = Some ev /\ raised ev = Some exc) \/
  (exists c resp,
      last (events (run o st)) = Some (ev_core c (Ok resp)) /\
      core.is_message_list c = true /\
      py_getitem resp "messages" = Raise exc).
Proof.
  destruct o;
    unfold run, exists_, ensure_exists, metadata, delete, post, message,
      messages;
    run_all;
    try match goal with
      | |- context [py_getitem ?v ?k] => destruct (py_getitem v k) eqn:?
      end; simpl;
    intros H; try discriminate H; injection H as <-;
    first [ left; eexists; split; reflexivity
          | right; eexists _, _; split; [reflexivity|]; split;
            [reflexivity|assumption] ].
Qed.

(** *** A call and the read that follows it *)

(** A write of a non-empty value followed by a read: one remote call in
    all, and the read returns the value written. *)
Lemma metadata_write_then_read new_meta st req trans st1 evs v e w
    req' trans' st3 evs' :
  truthy new_meta = true ->
  _request_and_transport st = mkRun (Ok (req, trans)) st1 evs ->
  let set := core.queue_set_metadata trans req (_id (self st)) new_meta in
  core_send set (env st1, world st1) = (Ok v, (e, w)) ->
  let st2 := mkState (with_metadata (self st) new_meta) e w in
  _request_and_transport st2 = mkRun (Ok (req', trans')) st3 evs' ->
  metadata new_meta false st =
    mkRun (Ok new_meta) st2 (evs ++ [ev_core set (Ok v)]) /\
  core_calls (events (metadata new_meta false st)) = [set] /\
  metadata PNone false st2 = mkRun (Ok new_meta) st3 evs' /\
  core_calls (events (metadata PNone false st2)) = [].
Proof.
  intros Ht Hasm set Hset st2 Hasm2. subst set st2.
  pose proof (metadata_write_through _ _ _ _ _ _ _ _ _ Ht Hasm Hset) as H1.
  pose proof (metadata_cached_read
                (mkState (with_metadata (self st) new_meta) e w)
                _ _ _ _ Ht Hasm2) as H2.
  pose proof (assembly_ok _ _ _ _ _ Hasm) as (_ & _ & Hc & _).
  pose proof (assembly_ok _ _ _ _ _ Hasm2) as (_ & _ & Hc2 & _).
  simpl in H2. rewrite H1, H2. simpl.
  rewrite core_calls_app, Hc. repeat split; assumption.
Qed.

(** C2, as the code has it.  A read with an empty cache makes one remote
    call, the fetch, and stores the value fetched, whatever that value
    is.  If the value is not empty (true in Python's sense), the next
    read makes no remote call and, when it returns, returns that value;
    it returns whenever its request assembly succeeds. *)
Theorem metadata_fetch_then_cached st req trans st1 evs v e w :
  truthy (_metadata (self st)) = false ->
  _request_and_transport st = mkRun (Ok (req, trans)) st1 evs ->
  let get := core.queue_get_metadata trans req (_id (self st)) in
  core_send get (env st1, world st1) = (Ok v, (e, w)) ->
  let st2 := mkState (with_metadata (self st) v) e w in
  metadata PNone false st = mkRun (Ok v) st2 (evs ++ [ev_core get (Ok v)]) /\
  core_calls (events (metadata PNone false st)) = [get] /\
  _metadata (self (final (metadata PNone false st))) = v /\
  (truthy v = true ->
   core_calls (events (metadata PNone false st2)) = [] /\
   (forall x, result (metadata PNone false st2) = Ok x -> x = v) /\
   forall req' trans' st3 evs',
     _request_and_transport st2 = mkRun (Ok (req', trans')) st3 evs' ->
     metadata PNone false st2 = mkRun (Ok v) st3 evs').
Proof.
  intros Hc Hasm get Hget st2. subst get st2.
  assert (Hg : truthy (_metadata (self st)) && negb false = false)
    by (rewrite Hc; reflexivity).
  pose proof (metadata_fetch _ _ _ _ _ _ _ _ _ Hg Hasm Hget) as H1.
  pose proof (assembly_ok _ _ _ _ _ Hasm) as (_ & _ & Hc1 & _).
  split; [exact H1|]. rewrite H1. simpl.
  split; [rewrite core_calls_app, Hc1; reflexivity|].
  split; [reflexivity|].
  intros Hv. split; [|split].
  - unfold metadata. run_method; rewrite ?Hv; reflexivity.
  - unfold metadata. run_method; rewrite ?Hv; simpl;
      intros x [= <-]; reflexivity.
  - intros req' trans' st3 evs' Hasm2.
    exact (metadata_cached_read
             (mkState (with_metadata (self st) v) e w) _ _ _ _ Hv Hasm2).
Qed.

(** A new handle has an empty cache, with or without [auto_create]. *)
Lemma init_cache_empty (c : Client) (queue_id : string)
    (auto_create : bool) (e : Env) (w : World) :
  self (final (__init__ c queue_id auto_create e w)) =
    mkQueue c queue_id PNone.
Proof.
  unfold __init__. destruct auto_create; [|reflexivity].
  exact (run_frame op_ensure_exists _ I).
Qed.

(** *** More on request assembly *)

(** X1.  When request assembly raises, the method raises the same
    exception and has sent nothing: no function of [core] was called and
    the handle and the service are as before. *)
Theorem nothing_sent_when_assembly_fails (o : operation) st exc st1 evs :
  _request_and_transport st = mkRun (Raise exc) st1 evs ->
  run o st = mkRun (Raise exc) st1 evs /\
  core_calls evs = [] /\ self st1 = self st /\ world st1 = world st.
Proof.
  intros Hasm. split.
  - destruct o;
      unfold run, exists_, ensure_exists, metadata, delete, post, message,
        messages;
      exact (bind_raise _ _ _ _ _ _ Hasm).
  - revert Hasm. rewrite assembly_spec.
    destruct (prepare_request _ _ _ _) as [[req0|x] e1]; simpl.
    + destruct (get_transport_for _ _ _) as [[t|x] e2]; [discriminate|].
      intros [= <- <- <-]. repeat split.
    + intros [= <- <- <-]. repeat split.
Qed.

(** X2.  The request a method sends is the prepared request with one
    change: the header [Client-ID] is set, replacing a value that was
    already there.  Endpoint, api, body and every other header are those
    of the prepared request. *)
Theorem assembly_keeps_prepared_request st req trans st1 evs :
  _request_and_transport st = mkRun (Ok (req, trans)) st1 evs ->
  let c := client (self st) in
  exists req0 e1,
    prepare_request (conf c) (api_url c)
      ("queues.v" +:+ py_str (api_version c)) (env st) = (Ok req0, e1) /\
    endpoint req = endpoint req0 /\
    api req = api req0 /\
    content req = content req0 /\
    headers req !! "Client-ID" = Some (client_uuid c) /\
    forall name, name <> "Client-ID" ->
      headers req !! name = headers req0 !! name.
Proof.
  intros Hasm c. subst c. revert Hasm. rewrite assembly_spec.
  destruct (prepare_request _ _ _ _) as [[req0|x] e1]; [|discriminate].
  simpl. destruct (get_transport_for _ _ _) as [[t|x] e2]; [|discriminate].
  intros [= <- <- <- <-]. exists req0, e1.
  split; [reflexivity|]. repeat (split; [reflexivity|]). split.
  - apply lookup_insert_eq.
  - intros name Hne. apply lookup_insert_ne. congruence.
Qed.

(** X3.  Every call to [core] that a method makes is for the queue of the
    handle and goes through the request and the transport that request
    assembly produced: the calls of one run all share them. *)
Theorem calls_target_the_handle (o : operation) st req trans st1 evs call :
  _request_and_transport st = mkRun (Ok (req, trans)) st1 evs ->
  In call (core_calls (events (run o st))) ->
  core.queue_id_of call = _id (self st) /\
  core.request_of call = req /\
  core.transport_of call = trans.
Proof.
  intros Hasm.
  pose proof (assembly_ok _ _ _ _ _ Hasm) as (_ & _ & Hcalls & _).
  destruct o;
    unfold run, exists_, ensure_exists, metadata, delete, post, message,
      messages;
    after_assembly Hasm;
    repeat (first [split_guard | split_answer]; unfold_monad);
    try match goal with
      | |- context [py_getitem ?v ?k] => destruct (py_getitem v k)
      end; simpl;
    rewrite ?core_calls_app, ?Hcalls; simpl;
    intros Hin;
    repeat match type of Hin with
      | _ \/ _ => destruct Hin as [Hin|Hin]
      | False => contradiction
      | _ = _ => subst call
      end;
    repeat split.
Qed.

(** X4.  A method assembles one request and makes at most one call to
    [core]; [metadata] makes at most two, and two only when it is given a
    true [new_meta]. *)
Theorem calls_are_bounded (o : operation) st :
  (length (core_calls (events (run o st))) <=
     match o with
     | op_metadata new_meta _ => if truthy new_meta then 2 else 1
     | _ => 1
     end)%nat /\
  (length (events (run o st)) <=
     2 + length (core_calls (events (run o st))))%nat.
Proof.
  destruct o;
    unfold run, exists_, ensure_exists, metadata, delete, post, message,
      messages;
    run_all;
    try match goal with
      | |- context [py_getitem ?v ?k] => destruct (py_getitem v k)
      end; simpl; lia.
Qed.

(** X5.  No method changes which client and which queue a handle stands
    for. *)
Theorem handle_identity_is_kept (o : operation) st :
  client (self (final (run o st))) = client (self st) /\
  _id (self (final (run o st))) = _id (self st).
Proof.
  destruct o;
    unfold run, exists_, ensure_exists, metadata, delete, post, message,
      messages;
    run_all;
    try match goal with
      | |- context [py_getitem ?v ?k] => destruct (py_getitem v k)
      end; simpl; split; reflexivity.
Qed.

(** *** More on the metadata cache *)

(** X6.  A read with a non-empty cache never looks at the service: result,
    handle and trace are the same whatever the service holds, the service
    is left as it is, and if the read returns, it returns the cached
    value. *)
Theorem cached_read_ignores_the_service (q : Queue) (e : Env) (w w' : World) :
  truthy (_metadata q) = true ->
  let r := metadata PNone false (mkState q e w) in
  let r' := metadata PNone false (mkState q e w') in
  result r = result r' /\
  events r = events r' /\
  self (final r) = q /\
  env (final r) = env (final r') /\
  world (final r) = w /\
  core_calls (events r) = [] /\
  forall v, result r = Ok v -> v = _metadata q.
Proof.
  intros Ht r r'. subst r r'. unfold metadata.
  run_method; rewrite ?Ht; simpl; repeat split; try reflexivity;
    intros v [= <-]; reflexivity.
Qed.

(** X7.  A forced reload fetches even when the cache is populated: one
    call to [core], whose answer replaces the cache and is returned. *)
Theorem forced_reload_replaces_the_cache st req trans st1 evs v e w :
  _request_and_transport st = mkRun (Ok (req, trans)) st1 evs ->
  let get := core.queue_get_metadata trans req (_id (self st)) in
  core_send get (env st1, world st1) = (Ok v, (e, w)) ->
  metadata PNone true st =
    mkRun (Ok v) (mkState (with_metadata (self st) v) e w)
      (evs ++ [ev_core get (Ok v)]).
Proof.
  intros Hasm get Hget. subst get.
  apply (metadata_fetch true st req trans st1 evs v e w);
    [apply andb_false_r|exact Hasm|exact Hget].
Qed.

(** X8.  When the fetch raises, [metadata] raises the same exception and
    the cache is as it was: the field is assigned after the call
    returned. *)
Theorem fetch_failure_keeps_the_cache new_meta force_reload
    st req trans st1 evs exc e w :
  truthy new_meta = false ->
  truthy (_metadata (self st)) && negb force_reload = false ->
  _request_and_transport st = mkRun (Ok (req, trans)) st1 evs ->
  let get := core.queue_get_metadata trans req (_id (self st)) in
  core_send get (env st1, world st1) = (Raise exc, (e, w)) ->
  metadata new_meta force_reload st =
    mkRun (Raise exc) (mkState (self st) e w)
      (evs ++ [ev_core get (Raise exc)]).
Proof.
  intros Hn Hg Hasm get Hget. subst get.
  unfold metadata. after_assembly Hasm. simpl in Hget.
  rewrite Hn. unfold_monad. rewrite Hg. unfold_monad. rewrite Hget.
  reflexivity.
Qed.

(** X9.  A write with [force_reload] whose fetch raises: the write is
    done, the exception of the fetch is raised, and the cache holds
    [new_meta], which was assigned between the two calls. *)
Theorem reload_failure_after_write new_meta st req trans st1 evs
    v1 e1 w1 exc e2 w2 :
  truthy new_meta = true ->
  _request_and_transport st = mkRun (Ok (req, trans)) st1 evs ->
  let set := core.queue_set_metadata trans req (_id (self st)) new_meta in
  let get := core.queue_get_metadata trans req (_id (self st)) in
  core_send set (env st1, world st1) = (Ok v1, (e1, w1)) ->
  core_send get (e1, w1) = (Raise exc, (e2, w2)) ->
  metadata new_meta true st =
    mkRun (Raise exc) (mkState (with_metadata (self st) new_meta) e2 w2)
      (evs ++ [ev_core set (Ok v1); ev_core get (Raise exc)]).
Proof.
  intros Ht Hasm set get Hset Hget. subst set get.
  unfold metadata. after_assembly Hasm. simpl in Hset.
  rewrite Ht. unfold_monad. rewrite Hset. simpl.
  rewrite andb_false_r. unfold_monad. rewrite Hget. reflexivity.
Qed.

(** X10.  The cache outlives the queue: after [delete], whatever the
    service answered, a read with a non-empty cache still returns the
    cached value without a call to [core]. *)
Theorem cache_survives_delete st req trans st3 evs :
  truthy (_metadata (self st)) = true ->
  _request_and_transport (final (delete st)) =
    mkRun (Ok (req, trans)) st3 evs ->
  metadata PNone false (final (delete st)) =
    mkRun (Ok (_metadata (self st))) st3 evs /\
  core_calls evs = [].
Proof.
  intros Ht Hasm.
  pose proof (run_frame op_delete st I) as Hself. simpl in Hself.
  pose proof (assembly_ok _ _ _ _ _ Hasm) as (_ & _ & Hcalls & _).
  split; [|exact Hcalls].
  rewrite <- Hself in Ht |- *.
  exact (metadata_cached_read _ _ _ _ _ Ht Hasm).
Qed.

(** *** More on the methods that pass a call through *)

(** X11.  [ensure_exists] and [delete] each make one call to [core],
    [queue_create] and [queue_delete]; neither asks first whether the
    queue exists.  What the call returns is dropped: the method returns
    [None]; what it raises is raised. *)
Theorem ensure_exists_and_delete_return_none st req trans st1 evs :
  _request_and_transport st = mkRun (Ok (req, trans)) st1 evs ->
  let create := core.queue_create trans req (_id (self st)) in
  let remove := core.queue_delete trans req (_id (self st)) in
  let dropped (r : Res pyval) :=
    match r with Ok _ => Ok PNone | Raise exc => Raise exc end in
  (exists r e w,
      core_send create (env st1, world st1) = (r, (e, w)) /\
      ensure_exists st =
        mkRun (dropped r) (mkState (self st) e w)
          (evs ++ [ev_core create r])) /\
  (exists r e w,
      core_send remove (env st1, world st1) = (r, (e, w)) /\
      delete st =
        mkRun (dropped r) (mkState (self st) e w)
          (evs ++ [ev_core remove r])).
Proof.
  intros Hasm create remove dropped. subst create remove dropped. split.
  - unfold ensure_exists. after_assembly Hasm.
    destruct (core_send _ _) as [[v|exc] [e w]]; simpl;
      eexists _, e, w; split; reflexivity.
  - unfold delete. after_assembly Hasm.
    destruct (core_send _ _) as [[v|exc] [e w]]; simpl;
      eexists _, e, w; split; reflexivity.
Qed.

(** X12.  [post] sends a list as it is, in one call: the empty list is
    sent too, and a list inside the list is not flattened.  The method
    returns what the call returns. *)
Theorem post_sends_a_list_as_it_is (l : list pyval) st req trans st1 evs :
  _request_and_transport st = mkRun (Ok (req, trans)) st1 evs ->
  let c := core.message_post trans req (_id (self st)) (PList l) in
  exists r e w,
    core_send c (env st1, world st1) = (r, (e, w)) /\
    post (PList l) st = mkRun r (mkState (self st) e w) (evs ++ [ev_core c r]).
Proof.
  intros Hasm c. subst c. unfold post. after_assembly Hasm.
  destruct (core_send _ _) as [r [e w]]. exists r, e, w.
  split; reflexivity.
Qed.

(** X13.  Message ids take priority over filters: with at least one id,
    [messages] ignores the filters, makes one [message_get_many] call
    with the tuple of ids and returns its answer as it is, without
    taking a field of it. *)
Theorem messages_ids_take_priority (ids : list pyval)
    (params params' : list (string * pyval)) st :
  ids <> [] ->
  messages ids params st = messages ids params' st /\
  forall req trans st1 evs,
    _request_and_transport st = mkRun (Ok (req, trans)) st1 evs ->
    let c := core.message_get_many trans req (_id (self st)) (PTuple ids) in
    exists r e w,
      core_send c (env st1, world st1) = (r, (e, w)) /\
      messages ids params st =
        mkRun r (mkState (self st) e w) (evs ++ [ev_core c r]).
Proof.
  intros Hids. destruct ids as [|i ids]; [contradiction|]. split.
  - reflexivity.
  - intros req trans st1 evs Hasm c. subst c.
    unfold messages. after_assembly Hasm.
    destruct (core_send _ _) as [r [e w]]. exists r, e, w.
    split; reflexivity.
Qed.

(** X14.  A listing whose answer is a dictionary without the key
    ['messages'] makes [messages] raise [KeyError('messages')], after the
    one call was made. *)
Theorem messages_missing_key (params : list (string * pyval))
    st req trans st1 evs d e w :
  _request_and_transport st = mkRun (Ok (req, trans)) st1 evs ->
  let c := core.message_list trans req (_id (self st)) params in
  core_send c (env st1, world st1) = (Ok (PDict d), (e, w)) ->
  dict_get d "messages" = None ->
  messages [] params st =
    mkRun (Raise (Exn "KeyError" (PStr "messages"))) (mkState (self st) e w)
      (evs ++ [ev_core c (Ok (PDict d))]).
Proof.
  intros Hasm c Hsend Hd. subst c.
  unfold messages. after_assembly Hasm. simpl in Hsend.
  rewrite Hsend. simpl. rewrite Hd. reflexivity.
Qed.

(** *** The constructor *)

(** X15.  Without [auto_create] the constructor calls nothing.  With it,
    the constructor makes at most one call to [core]; if it returns, it
    made exactly one, a [queue_create] for the queue id it was given.
    Either way the new handle has an empty cache. *)
Theorem init_auto_create (c : Client) (queue_id : string) (e : Env)
    (w : World) :
  __init__ c queue_id false e w =
    mkRun (Ok PNone) (mkState (mkQueue c queue_id PNone) e w) [] /\
  (forall auto_create,
      self (final (__init__ c queue_id auto_create e w)) =
        mkQueue c queue_id PNone) /\
  (length (core_calls (events (__init__ c queue_id true e w))) <= 1)%nat /\
  (forall v, result (__init__ c queue_id true e w) = Ok v ->
     v = PNone /\
     exists trans req,
       core_calls (events (__init__ c queue_id true e w)) =
         [core.queue_create trans req queue_id]).
Proof.
  split; [reflexivity|]. split; [|split].
  - intros [|]; [|reflexivity].
    exact (run_frame op_ensure_exists _ I).
  - unfold __init__, ensure_exists. run_all; simpl; lia.
  - unfold __init__, ensure_exists. run_all; intros v [= <-].
    split; [reflexivity|]. eexists _, _. reflexivity.
Qed.


End Queue.

(** ** Runs on the test doubles *)

#[local] Abbreviation demo_assembly :=
  (_request_and_transport (World := pyval)
     Demo.prepare_request Demo.get_transport_for).
#[local] Abbreviation demo_metadata :=
  (metadata Demo.prepare_request Demo.get_transport_for Demo.core_send).

Example demo_assembly_run :
  demo_assembly (Demo.state Demo.a_client PNone PNone) =
    mkRun (Ok (Demo.sent_request, PObj 7))
      (Demo.state Demo.a_client PNone PNone) Demo.assembly_trace.
Proof. vm_compute. reflexivity. Qed.

(** C1, where it fails.  The handle has [{'ttl': 60}] cached, which is
    also what the service stores, and is asked to replace it with the
    empty dictionary.  Nothing is written: no call to [core] is made, the
    service and the cache keep the old value, and the old value is
    returned.  With an empty cache the same call fetches instead of
    writing. *)
Theorem metadata_empty_dict_is_not_written :
  let r := demo_metadata (PDict []) false
             (Demo.state Demo.a_client (Demo.ttl 60) (Demo.ttl 60)) in
  let r' := demo_metadata (PDict []) false
              (Demo.state Demo.a_client PNone (Demo.ttl 60)) in
  (core_calls (events r) = [] /\
   world (final r) = Demo.ttl 60 /\
   _metadata (self (final r)) = Demo.ttl 60 /\
   result r = Ok (Demo.ttl 60)) /\
  (core_calls (events r') =
     [core.queue_get_metadata (PObj 7) Demo.sent_request "demo"] /\
   world (final r') = Demo.ttl 60 /\
   result r' = Ok (Demo.ttl 60)).
Proof. vm_compute. repeat split; reflexivity. Qed.

(** C2, where it fails.  The cache is empty and the queue has no metadata:
    the service answers the empty dictionary.  The first read fetches it
    and stores it, and the second read fetches again. *)
Theorem metadata_empty_answer_is_fetched_again :
  let fetch := core.queue_get_metadata (PObj 7) Demo.sent_request "demo" in
  let r1 := demo_metadata PNone false
              (Demo.state Demo.a_client PNone (PDict [])) in
  let r2 := demo_metadata PNone false (final r1) in
  core_calls (events r1) = [fetch] /\
  _metadata (self (final r1)) = PDict [] /\
  core_calls (events r2) = [fetch] /\
  result r2 = Ok (PDict []).
Proof. vm_compute. repeat split; reflexivity. Qed.

Lemma metadata_fetch_then_cached_witness :
  let st := Demo.state Demo.a_client PNone (Demo.ttl 60) in
  let st2 := Demo.state Demo.a_client (Demo.ttl 60) (Demo.ttl 60) in
  let get := core.queue_get_metadata (PObj 7) Demo.sent_request "demo" in
  truthy (_metadata (self st)) = false /\
  demo_assembly st =
    mkRun (Ok (Demo.sent_request, PObj 7)) st Demo.assembly_trace /\
  Demo.core_send get (tt, Demo.ttl 60) =
    (Ok (Demo.ttl 60), (tt, Demo.ttl 60)) /\
  truthy (Demo.ttl 60) = true /\
  demo_assembly st2 =
    mkRun (Ok (Demo.sent_request, PObj 7)) st2 Demo.assembly_trace /\
  demo_metadata PNone false st =
    mkRun (Ok (Demo.ttl 60)) st2
      (Demo.assembly_trace ++ [ev_core get (Ok (Demo.ttl 60))]) /\
  core_calls (events (demo_metadata PNone false st)) = [get] /\
  _metadata (self (final (demo_metadata PNone false st))) = Demo.ttl 60 /\
  core_calls (events (demo_metadata PNone false st2)) = [] /\
  demo_metadata PNone false st2 =
    mkRun (Ok (Demo.ttl 60)) st2 Demo.assembly_trace.
Proof.
  intros st st2 get.
  split; [reflexivity|]. split; [reflexivity|]. split; [reflexivity|].
  split; [reflexivity|]. split; [reflexivity|].
  pose proof (metadata_fetch_then_cached
                Demo.prepare_request Demo.get_transport_for Demo.core_send
                st Demo.sent_request (PObj 7) st Demo.assembly_trace
                (Demo.ttl 60) tt (Demo.ttl 60) eq_refl eq_refl eq_refl)
    as (H1 & H2 & H3 & H4).
  destruct (H4 eq_refl) as (H5 & _ & H6).
  split; [exact H1|]. split; [exact H2|]. split; [exact H3|].
  split; [exact H5|].
  exact (H6 Demo.sent_request (PObj 7) st2 Demo.assembly_trace eq_refl).
Defined.

Lemma post_wraps_single_message_witness :
  let m := PDict [("ttl", PInt 60); ("body", PStr "hello")] in
  let st := Demo.state Demo.a_client PNone PNone in
  let c := core.message_post (PObj 7) Demo.sent_request "demo" (PList [m]) in
  isinstance_list m = false /\
  post Demo.prepare_request Demo.get_transport_for Demo.core_send m st =
    post Demo.prepare_request Demo.get_transport_for Demo.core_send
      (PList [m]) st /\
  exists r e w,
    Demo.core_send c (tt, PNone) = (r, (e, w)) /\
    post Demo.prepare_request Demo.get_transport_for Demo.core_send m st =
      mkRun r (mkState (self st) e w) (Demo.assembly_trace ++ [ev_core c r]).
Proof.
  intros m st c. split; [reflexivity|].
  pose proof (post_wraps_single_message
                Demo.prepare_request Demo.get_transport_for Demo.core_send
                m st eq_refl) as [Heq Hrun].
  split; [exact Heq|].
  exact (Hrun Demo.sent_request (PObj 7) st Demo.assembly_trace eq_refl).
Defined.

(** C4, where it fails.  The transport layer has no transport for the
    endpoint and the client has no transport of its own: the resolver
    returns [None] and raises nothing. *)
Lemma get_transport_may_return_none :
  _get_transport Demo.no_transport_for Demo.a_request
    (Demo.state Demo.bare_client PNone PNone) =
  mkRun (Ok PNone) (Demo.state Demo.bare_client PNone PNone)
    [ev_get_transport_for (PObj 1) Demo.a_request (Ok PNone)].
Proof. reflexivity. Qed.

Lemma messages_lists_one_page_witness :
  let st := Demo.state Demo.a_client PNone PNone in
  let params := [("limit", PInt 5)] in
  let c := core.message_list (PObj 7) Demo.sent_request "demo" params in
  demo_assembly st =
    mkRun (Ok (Demo.sent_request, PObj 7)) st Demo.assembly_trace /\
  exists r e w,
    Demo.core_send c (tt, PNone) = (r, (e, w)) /\
    messages Demo.prepare_request Demo.get_transport_for Demo.core_send
      [] params st =
      mkRun
        match r with
        | Ok resp => py_getitem resp "messages"
        | Raise exc => Raise exc
        end
        (mkState (self st) e w) (Demo.assembly_trace ++ [ev_core c r]) /\
    core_calls
      (events (messages Demo.prepare_request Demo.get_transport_for
                 Demo.core_send [] params st)) = [c] /\
    forall d page,
      r = Ok (PDict d) -> dict_get d "messages" = Some page ->
      result (messages Demo.prepare_request Demo.get_transport_for
                Demo.core_send [] params st) = Ok page.
Proof.
  intros st params c. split; [reflexivity|].
  exact (messages_lists_one_page
           Demo.prepare_request Demo.get_transport_for Demo.core_send
           params st Demo.sent_request (PObj 7) st Demo.assembly_trace
           eq_refl).
Defined.

Lemma set_metadata_error_propagates_witness :
  let st := Demo.state Demo.a_client (Demo.ttl 60) (Demo.ttl 60) in
  let new_meta := Demo.ttl 120 in
  let c := core.queue_set_metadata (PObj 7) Demo.sent_request "demo"
             new_meta in
  let r := metadata Demo.prepare_request Demo.get_transport_for
             Demo.core_down new_meta false st in
  let r' := run Demo.prepare_request Demo.get_transport_for Demo.core_down
              (op_post (Demo.ttl 1)) st in
  let ev := ev_core
              (core.message_post (PObj 7) Demo.sent_request "demo"
                 (PList [Demo.ttl 1])) (Raise Demo.unavailable) in
  truthy new_meta = true /\
  demo_assembly st =
    mkRun (Ok (Demo.sent_request, PObj 7)) st Demo.assembly_trace /\
  Demo.core_down c (tt, Demo.ttl 60) =
    (Raise Demo.unavailable, (tt, Demo.ttl 60)) /\
  r = mkRun (Raise Demo.unavailable) st
        (Demo.assembly_trace ++ [ev_core c (Raise Demo.unavailable)]) /\
  _metadata (self (final r)) = Demo.ttl 60 /\
  In ev (events r') /\
  raised ev = Some Demo.unavailable /\
  result r' = Raise Demo.unavailable /\
  last (events r') = Some ev.
Proof.
  intros st new_meta c r r' ev.
  split; [reflexivity|]. split; [reflexivity|]. split; [reflexivity|].
  pose proof (set_metadata_error_propagates
                Demo.prepare_request Demo.get_transport_for Demo.core_down)
    as [Hset Hany].
  pose proof (Hset new_meta false st Demo.sent_request (PObj 7) st
                Demo.assembly_trace Demo.unavailable tt (Demo.ttl 60)
                eq_refl eq_refl eq_refl) as (H1 & H2).
  split; [exact H1|]. split; [exact H2|].
  assert (Hin : In ev (events r'))
    by (vm_compute; right; right; left; reflexivity).
  split; [exact Hin|]. split; [reflexivity|].
  exact (Hany (op_post (Demo.ttl 1)) st ev Demo.unavailable Hin eq_refl).
Defined.

Lemma metadata_falsy_argument_is_a_read_witness :
  let st := Demo.state Demo.a_client (Demo.ttl 60) (Demo.ttl 60) in
  truthy (PDict []) = false /\
  demo_metadata (PDict []) false st = demo_metadata PNone false st /\
  Forall (fun c => core.is_set_metadata c = false)
    (core_calls (events (demo_metadata (PDict []) false st))).
Proof.
  intros st. split; [reflexivity|].
  pose proof (metadata_falsy_argument_is_a_read
                Demo.prepare_request Demo.get_transport_for Demo.core_send
                (PDict []) false st eq_refl) as (H1 & H2 & _).
  split; [exact H1|exact H2].
Defined.

Lemma metadata_write_with_force_reload_witness :
  let st := Demo.state Demo.a_client PNone (Demo.ttl 60) in
  let new_meta := Demo.ttl 120 in
  let set := core.queue_set_metadata (PObj 7) Demo.sent_request "demo"
               new_meta in
  let get := core.queue_get_metadata (PObj 7) Demo.sent_request "demo" in
  truthy new_meta = true /\
  demo_assembly st =
    mkRun (Ok (Demo.sent_request, PObj 7)) st Demo.assembly_trace /\
  Demo.core_frozen set (tt, Demo.ttl 60) = (Ok PNone, (tt, Demo.ttl 60)) /\
  Demo.core_frozen get (tt, Demo.ttl 60) =
    (Ok (Demo.ttl 60), (tt, Demo.ttl 60)) /\
  metadata Demo.prepare_request Demo.get_transport_for Demo.core_frozen
    new_meta true st =
    mkRun (Ok (Demo.ttl 60))
      (Demo.state Demo.a_client (Demo.ttl 60) (Demo.ttl 60))
      (Demo.assembly_trace ++
       [ev_core set (Ok PNone); ev_core get (Ok (Demo.ttl 60))]).
Proof.
  intros st new_meta set get.
  split; [reflexivity|]. split; [reflexivity|]. split; [reflexivity|].
  split; [reflexivity|].
  exact (metadata_write_with_force_reload
           Demo.prepare_request Demo.get_transport_for Demo.core_frozen
           new_meta st Demo.sent_request (PObj 7) st Demo.assembly_trace
           PNone tt (Demo.ttl 60) (Demo.ttl 60) tt (Demo.ttl 60)
           eq_refl eq_refl eq_refl eq_refl).
Defined.

(** ** Runs on the test doubles, beyond the claims *)

Lemma nothing_sent_when_assembly_fails_witness :
  let st := Demo.state Demo.a_client (Demo.ttl 60) (Demo.ttl 60) in
  let evs := [ev_prepare_request (PObj 1) "http://localhost:8888" "queues.v1"
                (Raise Demo.misconfigured)] in
  _request_and_transport Demo.prepare_fails Demo.get_transport_for st =
    mkRun (Raise Demo.misconfigured) st evs /\
  run Demo.prepare_fails Demo.get_transport_for Demo.core_send
    (op_post (Demo.ttl 1)) st = mkRun (Raise Demo.misconfigured) st evs /\
  core_calls evs = [].
Proof.
  intros st evs. split; [reflexivity|].
  pose proof (nothing_sent_when_assembly_fails
                Demo.prepare_fails Demo.get_transport_for Demo.core_send
                (op_post (Demo.ttl 1)) st Demo.misconfigured st evs eq_refl)
    as (H1 & H2 & _).
  split; [exact H1|exact H2].
Defined.

Lemma assembly_keeps_prepared_request_witness :
  let st := Demo.state Demo.a_client PNone PNone in
  let req := {| endpoint := "http://localhost:8888"; api := "queues.v1";
                headers := {["Client-ID" := "3381af92";
                             "X-Auth-Token" := "t0k3n"]};
                content := PNone |} in
  let evs := [ev_prepare_request (PObj 1) "http://localhost:8888" "queues.v1"
                (fst (Demo.prepare_with_headers (PObj 1)
                        "http://localhost:8888" "queues.v1" tt));
              ev_get_transport_for (PObj 1) req (Ok (PObj 7))] in
  _request_and_transport Demo.prepare_with_headers Demo.get_transport_for st =
    mkRun (Ok (req, PObj 7)) st evs /\
  exists req0 e1,
    Demo.prepare_with_headers (PObj 1) "http://localhost:8888" "queues.v1" tt =
      (Ok req0, e1) /\
    endpoint req = endpoint req0 /\
    api req = api req0 /\
    content req = content req0 /\
    headers req !! "Client-ID" = Some "3381af92" /\
    forall name, name <> "Client-ID" ->
      headers req !! name = headers req0 !! name.
Proof.
  intros st req evs.
  assert (Hasm :
    _request_and_transport Demo.prepare_with_headers Demo.get_transport_for
      st = mkRun (Ok (req, PObj 7)) st evs) by (vm_compute; reflexivity).
  split; [exact Hasm|].
  exact (assembly_keeps_prepared_request
           Demo.prepare_with_headers Demo.get_transport_for
           st req (PObj 7) st evs Hasm).
Defined.

Lemma calls_target_the_handle_witness :
  let st := Demo.state Demo.a_client PNone (Demo.ttl 60) in
  let call := core.queue_get_metadata (PObj 7) Demo.sent_request "demo" in
  demo_assembly st =
    mkRun (Ok (Demo.sent_request, PObj 7)) st Demo.assembly_trace /\
  In call (core_calls (events (run Demo.prepare_request Demo.get_transport_for
                                 Demo.core_send (op_metadata (Demo.ttl 5) true)
                                 st))) /\
  core.queue_id_of call = "demo" /\
  core.request_of call = Demo.sent_request /\
  core.transport_of call = PObj 7.
Proof.
  intros st call. split; [reflexivity|].
  assert (Hin : In call
    (core_calls (events (run Demo.prepare_request Demo.get_transport_for
                           Demo.core_send (op_metadata (Demo.ttl 5) true)
                           st)))) by (vm_compute; right; left; reflexivity).
  split; [exact Hin|].
  exact (calls_target_the_handle
           Demo.prepare_request Demo.get_transport_for Demo.core_send
           (op_metadata (Demo.ttl 5) true) st Demo.sent_request (PObj 7) st
           Demo.assembly_trace call eq_refl Hin).
Defined.

Lemma cached_read_ignores_the_service_witness :
  let q := mkQueue Demo.a_client "demo" (Demo.ttl 60) in
  let r := demo_metadata PNone false (mkState q tt (Demo.ttl 60)) in
  let r' := demo_metadata PNone false (mkState q tt (Demo.ttl 3600)) in
  truthy (_metadata q) = true /\
  result r = result r' /\
  events r = events r' /\
  world (final r') = Demo.ttl 3600 /\
  core_calls (events r') = [] /\
  forall v, result r' = Ok v -> v = Demo.ttl 60.
Proof.
  intros q r r'. split; [reflexivity|].
  pose proof (cached_read_ignores_the_service
                Demo.prepare_request Demo.get_transport_for Demo.core_send
                q tt (Demo.ttl 3600) (Demo.ttl 60) eq_refl)
    as (H1 & H2 & _ & _ & H5 & H6 & H7).
  split; [symmetry; exact H1|]. split; [symmetry; exact H2|].
  split; [exact H5|]. split; [exact H6|exact H7].
Defined.

Lemma forced_reload_replaces_the_cache_witness :
  let st := Demo.state Demo.a_client (Demo.ttl 60) (Demo.ttl 3600) in
  let get := core.queue_get_metadata (PObj 7) Demo.sent_request "demo" in
  demo_assembly st =
    mkRun (Ok (Demo.sent_request, PObj 7)) st Demo.assembly_trace /\
  Demo.core_send get (tt, Demo.ttl 3600) =
    (Ok (Demo.ttl 3600), (tt, Demo.ttl 3600)) /\
  demo_metadata PNone true st =
    mkRun (Ok (Demo.ttl 3600))
      (Demo.state Demo.a_client (Demo.ttl 3600) (Demo.ttl 3600))
      (Demo.assembly_trace ++ [ev_core get (Ok (Demo.ttl 3600))]).
Proof.
  intros st get. split; [reflexivity|]. split; [reflexivity|].
  exact (forced_reload_replaces_the_cache
           Demo.prepare_request Demo.get_transport_for Demo.core_send
           st Demo.sent_request (PObj 7) st Demo.assembly_trace
           (Demo.ttl 3600) tt (Demo.ttl 3600) eq_refl eq_refl).
Defined.

Lemma fetch_failure_keeps_the_cache_witness :
  let st := Demo.state Demo.a_client (Demo.ttl 60) (Demo.ttl 3600) in
  let get := core.queue_get_metadata (PObj 7) Demo.sent_request "demo" in
  truthy PNone = false /\
  truthy (_metadata (self st)) && negb true = false /\
  demo_assembly st =
    mkRun (Ok (Demo.sent_request, PObj 7)) st Demo.assembly_trace /\
  Demo.core_no_read get (tt, Demo.ttl 3600) =
    (Raise Demo.unavailable, (tt, Demo.ttl 3600)) /\
  metadata Demo.prepare_request Demo.get_transport_for Demo.core_no_read
    PNone true st =
    mkRun (Raise Demo.unavailable) st
      (Demo.assembly_trace ++ [ev_core get (Raise Demo.unavailable)]).
Proof.
  intros st get.
  split; [reflexivity|]. split; [reflexivity|]. split; [reflexivity|].
  split; [reflexivity|].
  exact (fetch_failure_keeps_the_cache
           Demo.prepare_request Demo.get_transport_for Demo.core_no_read
           PNone true st Demo.sent_request (PObj 7) st Demo.assembly_trace
           Demo.unavailable tt (Demo.ttl 3600)
           eq_refl eq_refl eq_refl eq_refl).
Defined.

Lemma reload_failure_after_write_witness :
  let st := Demo.state Demo.a_client (Demo.ttl 60) (Demo.ttl 60) in
  let new_meta := Demo.ttl 120 in
  let set := core.queue_set_metadata (PObj 7) Demo.sent_request "demo"
               new_meta in
  let get := core.queue_get_metadata (PObj 7) Demo.sent_request "demo" in
  truthy new_meta = true /\
  demo_assembly st =
    mkRun (Ok (Demo.sent_request, PObj 7)) st Demo.assembly_trace /\
  Demo.core_no_read set (tt, Demo.ttl 60) = (Ok PNone, (tt, new_meta)) /\
  Demo.core_no_read get (tt, new_meta) =
    (Raise Demo.unavailable, (tt, new_meta)) /\
  metadata Demo.prepare_request Demo.get_transport_for Demo.core_no_read
    new_meta true st =
    mkRun (Raise Demo.unavailable)
      (Demo.state Demo.a_client new_meta new_meta)
      (Demo.assembly_trace ++
       [ev_core set (Ok PNone); ev_core get (Raise Demo.unavailable)]).
Proof.
  intros st new_meta set get.
  split; [reflexivity|]. split; [reflexivity|]. split; [reflexivity|].
  split; [reflexivity|].
  exact (reload_failure_after_write
           Demo.prepare_request Demo.get_transport_for Demo.core_no_read
           new_meta st Demo.sent_request (PObj 7) st Demo.assembly_trace
           PNone tt new_meta Demo.unavailable tt new_meta
           eq_refl eq_refl eq_refl eq_refl).
Defined.

Lemma cache_survives_delete_witness :
  let st := Demo.state Demo.a_client (Demo.ttl 60) (Demo.ttl 60) in
  let st' := final (delete Demo.prepare_request Demo.get_transport_for
                      Demo.core_send st) in
  truthy (_metadata (self st)) = true /\
  demo_assembly st' =
    mkRun (Ok (Demo.sent_request, PObj 7)) st Demo.assembly_trace /\
  demo_metadata PNone false st' =
    mkRun (Ok (Demo.ttl 60)) st Demo.assembly_trace /\
  core_calls Demo.assembly_trace = [].
Proof.
  intros st st'. split; [reflexivity|].
  assert (Hasm : demo_assembly st' =
    mkRun (Ok (Demo.sent_request, PObj 7)) st Demo.assembly_trace)
    by (vm_compute; reflexivity).
  split; [exact Hasm|].
  exact (cache_survives_delete
           Demo.prepare_request Demo.get_transport_for Demo.core_send
           st Demo.sent_request (PObj 7) st Demo.assembly_trace
           eq_refl Hasm).
Defined.

Lemma ensure_exists_and_delete_return_none_witness :
  let st := Demo.state Demo.a_client PNone PNone in
  let create := core.queue_create (PObj 7) Demo.sent_request "demo" in
  let remove := core.queue_delete (PObj 7) Demo.sent_request "demo" in
  demo_assembly st =
    mkRun (Ok (Demo.sent_request, PObj 7)) st Demo.assembly_trace /\
  (exists r e w,
      Demo.core_down create (tt, PNone) = (r, (e, w)) /\
      ensure_exists Demo.prepare_request Demo.get_transport_for
        Demo.core_down st =
        mkRun match r with Ok _ => Ok PNone | Raise exc => Raise exc end
          (mkState (self st) e w) (Demo.assembly_trace ++ [ev_core create r])) /\
  (exists r e w,
      Demo.core_down remove (tt, PNone) = (r, (e, w)) /\
      delete Demo.prepare_request Demo.get_transport_for Demo.core_down st =
        mkRun match r with Ok _ => Ok PNone | Raise exc => Raise exc end
          (mkState (self st) e w) (Demo.assembly_trace ++ [ev_core remove r])).
Proof.
  intros st create remove. split; [reflexivity|].
  exact (ensure_exists_and_delete_return_none
           Demo.prepare_request Demo.get_transport_for Demo.core_down
           st Demo.sent_request (PObj 7) st Demo.assembly_trace eq_refl).
Defined.

Lemma post_sends_a_list_as_it_is_witness :
  let st := Demo.state Demo.a_client PNone PNone in
  let c := core.message_post (PObj 7) Demo.sent_request "demo" (PList []) in
  demo_assembly st =
    mkRun (Ok (Demo.sent_request, PObj 7)) st Demo.assembly_trace /\
  exists r e w,
    Demo.core_send c (tt, PNone) = (r, (e, w)) /\
    post Demo.prepare_request Demo.get_transport_for Demo.core_send
      (PList []) st =
      mkRun r (mkState (self st) e w) (Demo.assembly_trace ++ [ev_core c r]).
Proof.
  intros st c. split; [reflexivity|].
  exact (post_sends_a_list_as_it_is
           Demo.prepare_request Demo.get_transport_for Demo.core_send
           [] st Demo.sent_request (PObj 7) st Demo.assembly_trace eq_refl).
Defined.

Lemma messages_ids_take_priority_witness :
  let st := Demo.state Demo.a_client PNone PNone in
  let ids := [PStr "50b68a50d6f5b8c8a7c62b01"] in
  ids <> [] /\
  messages Demo.prepare_request Demo.get_transport_for Demo.core_send
    ids [("limit", PInt 5)] st =
  messages Demo.prepare_request Demo.get_transport_for Demo.core_send
    ids [] st.
Proof.
  intros st ids. split; [discriminate|].
  exact (proj1 (messages_ids_take_priority
                  Demo.prepare_request Demo.get_transport_for Demo.core_send
                  ids [("limit", PInt 5)] [] st ltac:(discriminate))).
Defined.

Lemma messages_missing_key_witness :
  let st := Demo.state Demo.a_client PNone PNone in
  let d := [("links", PList [])] in
  let c := core.message_list (PObj 7) Demo.sent_request "demo" [] in
  demo_assembly st =
    mkRun (Ok (Demo.sent_request, PObj 7)) st Demo.assembly_trace /\
  Demo.core_bare c (tt, PNone) = (Ok (PDict d), (tt, PNone)) /\
  dict_get d "messages" = None /\
  messages Demo.prepare_request Demo.get_transport_for Demo.core_bare
    [] [] st =
    mkRun (Raise (Exn "KeyError" (PStr "messages"))) st
      (Demo.assembly_trace ++ [ev_core c (Ok (PDict d))]).
Proof.
  intros st d c.
  split; [reflexivity|]. split; [reflexivity|]. split; [reflexivity|].
  exact (messages_missing_key
           Demo.prepare_request Demo.get_transport_for Demo.core_bare
           [] st Demo.sent_request (PObj 7) st Demo.assembly_trace d tt PNone
           eq_refl eq_refl eq_refl).
Defined.

Lemma errors_are_not_invented_witness :
  let o := op_messages [] [] in
  let st := Demo.state Demo.a_client PNone PNone in
  let exc := Exn "KeyError" (PStr "messages") in
  let r := run Demo.prepare_request Demo.get_transport_for Demo.core_bare
             o st in
  result r = Raise exc /\
  ((exists ev, last (events r) = Some ev /\ raised ev = Some exc) \/
   (exists c resp,
       last (events r) = Some (ev_core c (Ok resp)) /\
       core.is_message_list c = true /\
       py_getitem resp "messages" = Raise exc)).
Proof.
  intros o st exc r. split; [reflexivity|].
  exact (errors_are_not_invented
           Demo.prepare_request Demo.get_transport_for Demo.core_bare
           o st exc eq_refl).
Defined.
